(** * skgpu::graphite::TextureInfo and skgpu::graphite::BackendTexture

    A shallow embedding of the two public headers
    [include/gpu/graphite/TextureInfo.h] and
    [include/gpu/graphite/BackendTexture.h], for the build configuration in
    which [SK_VULKAN] is defined and [SK_DAWN] and [SK_METAL] are not.

    Member functions whose bodies are written in the headers are translated
    line by line.  Member functions that the headers only declare (their
    bodies live in translation units that are not part of the headers) are
    given a model that follows the behavioural description of the component;
    each such definition says so in its documentation comment. *)

From stdpp Require Import base decidable option numbers list gmap.

Local Open Scope Z_scope.

(** ** Types of GraphiteTypes.h and of the Vulkan headers

    The enumerations and the Vulkan structures are declared in headers that
    the two files include.  They are used here through the names the two
    files mention. *)

(** [skgpu::BackendApi]: one tag per backend, and the mock tag a
    default-constructed value carries ([fBackend = BackendApi::kMock]). *)
Inductive BackendApi : Set := kDawn | kMetal | kVulkan | kMock.

(** [skgpu::Mipmapped] and [skgpu::Protected]. *)
Inductive Mipmapped : Set := Mipmapped_kNo | Mipmapped_kYes.
Inductive Protected : Set := Protected_kNo | Protected_kYes.

#[global] Instance BackendApi_eq_dec : EqDecision BackendApi.
Proof. solve_decision. Defined.
#[global] Instance Mipmapped_eq_dec : EqDecision Mipmapped.
Proof. solve_decision. Defined.
#[global] Instance Protected_eq_dec : EqDecision Protected.
Proof. solve_decision. Defined.

(** [uint32_t], [int32_t] and the Vulkan handle and enum types are integers;
    the two headers only store, copy and compare them. *)
Definition uint32_t := Z.
Definition VkImage := Z.
Definition VkImageLayout := Z.

(** [VK_NULL_HANDLE], the initialiser of [BackendTexture::fVkImage]. *)
Definition VK_NULL_HANDLE : VkImage := 0.

(** Modelled from the spec: [VulkanTextureSpec] is declared in
    VulkanGraphiteTypesPriv.h, which is not among the headers at hand.  The
    backend-specific spec is described as holding the pixel/surface format,
    the tiling mode, the usage flags and the Y'CbCr/planar metadata. *)
Record VulkanTextureSpec : Set := {
  spec_fFormat : Z;
  spec_fImageTiling : Z;
  spec_fImageUsageFlags : Z;
  spec_fYcbcrConversionInfo : Z
}.

(** Modelled from the spec: [VulkanTextureInfo], the native Vulkan texture
    description, is declared in a header that is not at hand.  It carries the
    sample count and the mipmapped state next to the fields of the spec: the
    call [VulkanTextureSpecToTextureInfo(fVkSpec, fSampleCount, fMipmapped)]
    rebuilds one from exactly these three parts. *)
Record VulkanTextureInfo : Set := {
  info_fSampleCount : uint32_t;
  info_fMipmapped : Mipmapped;
  info_fFormat : Z;
  info_fImageTiling : Z;
  info_fImageUsageFlags : Z;
  info_fYcbcrConversionInfo : Z
}.

#[global] Instance VulkanTextureSpec_eq_dec : EqDecision VulkanTextureSpec.
Proof. solve_decision. Defined.
#[global] Instance VulkanTextureInfo_eq_dec : EqDecision VulkanTextureInfo.
Proof. solve_decision. Defined.

(** Modelled from the spec: the conversion of a native info to the stored
    spec (the constructor [VulkanTextureSpec(const VulkanTextureInfo&)]) is
    not at hand; it keeps the backend-specific fields. *)
Definition VulkanTextureInfoToSpec (vkInfo : VulkanTextureInfo) : VulkanTextureSpec :=
  {| spec_fFormat := info_fFormat vkInfo;
     spec_fImageTiling := info_fImageTiling vkInfo;
     spec_fImageUsageFlags := info_fImageUsageFlags vkInfo;
     spec_fYcbcrConversionInfo := info_fYcbcrConversionInfo vkInfo |}.

(** Modelled from the spec: [VulkanTextureSpecToTextureInfo] is declared in
    VulkanGraphiteTypesPriv.h, which is not at hand; it rebuilds the native
    info from the stored spec, the sample count and the mipmapped state. *)
Definition VulkanTextureSpecToTextureInfo
    (vkSpec : VulkanTextureSpec) (sampleCount : uint32_t) (mipmapped : Mipmapped)
    : VulkanTextureInfo :=
  {| info_fSampleCount := sampleCount;
     info_fMipmapped := mipmapped;
     info_fFormat := spec_fFormat vkSpec;
     info_fImageTiling := spec_fImageTiling vkSpec;
     info_fImageUsageFlags := spec_fImageUsageFlags vkSpec;
     info_fYcbcrConversionInfo := spec_fYcbcrConversionInfo vkSpec |}.

(** ** SkAnySubclass

    [SkAnySubclass<Base, Size>] is inline storage of [Size] bytes that holds
    at most one object of a subclass of [Base].  A stored payload is kept as
    the bytes of its object representation; [None] is the empty container. *)
Definition SkAnySubclass : Set := option (list Z).

Definition emplace (payload : list Z) : SkAnySubclass := Some payload.

(** ** TextureInfo *)

Module TextureInfo.

(** [inline constexpr static size_t kMaxSubclassSize = 40;] *)
Definition kMaxSubclassSize : Z := 40.

(** The anonymous union at the end of the class.  With only [SK_VULKAN]
    defined its members are [fVkSpec] and [fEnsureUnionNonEmpty]; no
    constructor of the header initialises the latter, so the second
    alternative stands for a union none of whose members was written. *)
Inductive SpecUnion : Set :=
| VkSpec (s : VulkanTextureSpec)
| EnsureUnionNonEmpty.

Record t : Set := mk {
  fBackend : BackendApi;
  fValid : bool;
  fSampleCount : uint32_t;
  fMipmapped : Mipmapped;
  fProtected : Protected;
  fTextureInfoData : SkAnySubclass;
  fSpecUnion : SpecUnion
}.

(** Reading the member [fVkSpec].  C++ gives no meaning to the read when
    the member was never written; the model returns an all-zero spec there.
    Every use below is behind the guard of [getVulkanTextureInfo]. *)
Definition fVkSpec (i : t) : VulkanTextureSpec :=
  match fSpecUnion i with
  | VkSpec s => s
  | EnsureUnionNonEmpty =>
      {| spec_fFormat := 0; spec_fImageTiling := 0;
         spec_fImageUsageFlags := 0; spec_fYcbcrConversionInfo := 0 |}
  end.

(** Modelled from the spec: the body of the default constructor
    [TextureInfo()] is not in the header.  Default construction yields an
    invalid value; every field takes its in-class initialiser
    ([fBackend = BackendApi::kMock], [fValid = false], [fSampleCount = 1],
    [fMipmapped = Mipmapped::kNo], [fProtected = Protected::kNo]), the
    container is empty and the union is not written. *)
Definition default : t :=
  {| fBackend := kMock;
     fValid := false;
     fSampleCount := 1;
     fMipmapped := Mipmapped_kNo;
     fProtected := Protected_kNo;
     fTextureInfoData := None;
     fSpecUnion := EnsureUnionNonEmpty |}.

(** The private constructor template
    [TextureInfo(backend, sampleCount, mipped, isProtected, textureInfoData)]. *)
Definition make (backend : BackendApi) (sampleCount : uint32_t)
    (mipped : Mipmapped) (isProtected : Protected) (textureInfoData : list Z) : t :=
  {| fBackend := backend;
     fValid := true;
     fSampleCount := sampleCount;
     fMipmapped := mipped;
     fProtected := isProtected;
     fTextureInfoData := emplace textureInfoData;
     fSpecUnion := EnsureUnionNonEmpty |}.

(** Modelled from the spec: the body of
    [TextureInfo(const VulkanTextureInfo& vkInfo)] is not in the header.
    The constructor takes the native info and derives the backend tag, the
    sample count, the mipmapped state and the protected state, and stores
    the backend-specific spec.  How the protected state is derived from the
    native info is not described; it is the argument [protectedOf]. *)
Definition ofVulkan (protectedOf : VulkanTextureInfo -> Protected)
    (vkInfo : VulkanTextureInfo) : t :=
  {| fBackend := kVulkan;
     fValid := true;
     fSampleCount := info_fSampleCount vkInfo;
     fMipmapped := info_fMipmapped vkInfo;
     fProtected := protectedOf vkInfo;
     fTextureInfoData := None;
     fSpecUnion := VkSpec (VulkanTextureInfoToSpec vkInfo) |}.

(** [bool isValid() const { return fValid; }] and the other accessors. *)
Definition isValid (i : t) : bool := fValid i.
Definition backend (i : t) : BackendApi := fBackend i.
Definition numSamples (i : t) : uint32_t := fSampleCount i.
Definition mipmapped (i : t) : Mipmapped := fMipmapped i.
Definition isProtected (i : t) : Protected := fProtected i.

(** [bool getVulkanTextureInfo(VulkanTextureInfo* info) const].  The result
    is the returned flag together with the contents of [*info] after the
    call; [info] is the contents before the call. *)
Definition getVulkanTextureInfo (i : t) (info : VulkanTextureInfo)
    : bool * VulkanTextureInfo :=
  if negb (isValid i) || negb (bool_decide (fBackend i = kVulkan)) then
    (false, info)
  else
    (true, VulkanTextureSpecToTextureInfo (fVkSpec i) (fSampleCount i) (fMipmapped i)).

End TextureInfo.

#[global] Instance TextureInfo_SpecUnion_eq_dec : EqDecision TextureInfo.SpecUnion.
Proof. solve_decision. Defined.
#[global] Instance TextureInfo_eq_dec : EqDecision TextureInfo.t.
Proof. solve_decision. Defined.

Module TextureInfoOps.
Import TextureInfo.

Section Inequality.
(** [bool operator==(const TextureInfo&) const] is declared in the header
    and defined elsewhere; [operator!=] is written in the header in terms
    of it, whatever it computes. *)
Variable operator_eq : t -> t -> bool.

(** [bool operator!=(const TextureInfo& that) const { return !( *this == that ); }] *)
Definition operator_ne (this that : t) : bool := negb (operator_eq this that).
End Inequality.

End TextureInfoOps.

(** ** BackendTexture *)

(** [SkISize], of SkSize.h: a width and a height, both [int32_t]. *)
Record SkISize : Set := { fWidth : Z; fHeight : Z }.

(** Modelled from the spec: [VulkanAlloc], of VulkanTypes.h, is the
    memory-allocation descriptor of a Vulkan image; [VulkanAlloc()] is the
    empty descriptor of an image that the client allocated. *)
Record VulkanAlloc : Set := { fMemory : Z; fOffset : Z; fSize : Z }.

Definition VulkanAlloc_default : VulkanAlloc :=
  {| fMemory := 0; fOffset := 0; fSize := 0 |}.

(** Modelled from the spec: [skgpu::MutableTextureState] is only forward
    declared.  It carries the attributes of a texture that may change after
    construction: the current image layout and the current queue-family
    owner. *)
Record MutableTextureState : Set := {
  fLayout : VkImageLayout;
  fQueueFamilyIndex : uint32_t
}.

#[global] Instance SkISize_eq_dec : EqDecision SkISize.
Proof. solve_decision. Defined.
#[global] Instance VulkanAlloc_eq_dec : EqDecision VulkanAlloc.
Proof. solve_decision. Defined.
#[global] Instance MutableTextureState_eq_dec : EqDecision MutableTextureState.
Proof. solve_decision. Defined.

(** The values the Vulkan accessors fall back to. *)
Definition VK_IMAGE_LAYOUT_UNDEFINED : VkImageLayout := 0.
Definition VK_QUEUE_FAMILY_IGNORED : uint32_t := 4294967295.

(** [sk_sp<MutableTextureState>] is a counted reference to an object that
    several textures may share: a reference is a location, or null, and the
    objects live in a store. *)
Abbreviation ref := positive.
Abbreviation store := (gmap positive MutableTextureState).

Module BackendTexture.

(** [inline constexpr static size_t kMaxSubclassSize = 16;] *)
Definition kMaxSubclassSize : Z := 16.

(** The fields of the class.  With only [SK_VULKAN] defined the anonymous
    union is [{ VkImage fVkImage = VK_NULL_HANDLE; void* fEnsureUnionNonEmpty; }];
    its first member has an initialiser, and the model keeps that member. *)
Record t : Set := mk {
  fDimensions : SkISize;
  fInfo : TextureInfo.t;
  fTextureData : SkAnySubclass;
  fMutableState : option ref;
  fMemoryAlloc : VulkanAlloc;
  fVkImage : VkImage
}.

(** Modelled from the spec: the body of the default constructor
    [BackendTexture()] is not in the header.  The embedded info is default
    constructed and the other fields take their in-class initialisers.
    [fDimensions] has none, so its value is the argument [dimensions]. *)
Definition default (dimensions : SkISize) : t :=
  {| fDimensions := dimensions;
     fInfo := TextureInfo.default;
     fTextureData := None;
     fMutableState := None;
     fMemoryAlloc := VulkanAlloc_default;
     fVkImage := VK_NULL_HANDLE |}.

(** The private constructor template
    [BackendTexture(dimensions, info, textureData)]. *)
Definition make (dimensions : SkISize) (info : TextureInfo.t)
    (textureData : list Z) : t :=
  {| fDimensions := dimensions;
     fInfo := info;
     fTextureData := emplace textureData;
     fMutableState := None;
     fMemoryAlloc := VulkanAlloc_default;
     fVkImage := VK_NULL_HANDLE |}.

(** [bool isValid() const { return fInfo.isValid(); }] and the accessors
    next to it. *)
Definition isValid (b : t) : bool := TextureInfo.isValid (fInfo b).
Definition backend (b : t) : BackendApi := TextureInfo.backend (fInfo b).
Definition dimensions (b : t) : SkISize := fDimensions b.
Definition info (b : t) : TextureInfo.t := fInfo b.

(** The backend-specific handle of a texture: the payload of the container
    and the native handle in the union. *)
Definition handle (b : t) : SkAnySubclass * VkImage := (fTextureData b, fVkImage b).

Section Inequality.
(** [bool operator==(const BackendTexture&) const] is declared in the
    header and defined elsewhere. *)
Variable operator_eq : t -> t -> bool.

(** [bool operator!=(const BackendTexture& that) const { return !( *this == that ); }] *)
Definition operator_ne (this that : t) : bool := negb (operator_eq this that).
End Inequality.

Section Equality.
(** Equality of the embedded infos, [TextureInfo::operator==]. *)
Variable TextureInfo_eq : TextureInfo.t -> TextureInfo.t -> bool.

(** Modelled from the spec: the body of [operator==] is not in the
    header.  Equality requires equal dimensions, equal [info()], and equal
    backend-specific handle identity (the native handle itself, not the
    contents of the resource). *)
Definition operator_eq (this that : t) : bool :=
  bool_decide (fDimensions this = fDimensions that)
  && TextureInfo_eq (fInfo this) (fInfo that)
  && bool_decide (handle this = handle that).
End Equality.

(** Modelled from the spec: the body of [setMutableState] is not in the
    header.  It replaces, as a whole, the mutable state that this texture
    references; the state is shared, so the replacement happens in the
    store and every texture that holds the same reference observes it. *)
Definition setMutableState (this : t) (newState : MutableTextureState)
    (sigma : store) : t * store :=
  match fMutableState this with
  | Some l => (this, <[l := newState]> sigma)
  | None => (this, sigma)
  end.

(** The mutable state a texture references, read from the store. *)
Definition mutableState (sigma : store) (b : t) : option MutableTextureState :=
  match fMutableState b with
  | Some l => sigma !! l
  | None => None
  end.

(** Modelled from the spec: the bodies of the Vulkan accessors are not in
    the header.  An accessor is valid only when [backend()] matches;
    otherwise it returns its null or sentinel value. *)
Definition getVkImage (b : t) : VkImage :=
  if isValid b && bool_decide (backend b = kVulkan) then fVkImage b
  else VK_NULL_HANDLE.

Definition getVkImageLayout (sigma : store) (b : t) : VkImageLayout :=
  if isValid b && bool_decide (backend b = kVulkan) then
    match mutableState sigma b with
    | Some s => fLayout s
    | None => VK_IMAGE_LAYOUT_UNDEFINED
    end
  else VK_IMAGE_LAYOUT_UNDEFINED.

Definition getVkQueueFamilyIndex (sigma : store) (b : t) : uint32_t :=
  if isValid b && bool_decide (backend b = kVulkan) then
    match mutableState sigma b with
    | Some s => fQueueFamilyIndex s
    | None => VK_QUEUE_FAMILY_IGNORED
    end
  else VK_QUEUE_FAMILY_IGNORED.

(** [const VulkanAlloc* getMemoryAlloc() const]: [None] is the null pointer. *)
Definition getMemoryAlloc (b : t) : option VulkanAlloc :=
  if isValid b && bool_decide (backend b = kVulkan) then Some (fMemoryAlloc b)
  else None.

End BackendTexture.

#[global] Instance BackendTexture_eq_dec : EqDecision BackendTexture.t.
Proof. solve_decision. Defined.

(** ** TextureInfo: the private accessor of the Vulkan spec *)

Module TextureInfoAccess.

(** [const VulkanTextureSpec& vulkanTextureSpec() const], the accessor the
    Vulkan backend classes reach as friends:
    [SkASSERT(fValid && fBackend == BackendApi::kVulkan); return fVkSpec;].
    The assertion is the precondition of the call; [None] is the call whose
    assertion does not hold. *)
Definition vulkanTextureSpec (i : TextureInfo.t) : option VulkanTextureSpec :=
  if TextureInfo.fValid i && bool_decide (TextureInfo.fBackend i = kVulkan)
  then Some (TextureInfo.fVkSpec i)
  else None.

End TextureInfoAccess.

(** ** Sample values

    A native Vulkan info, the info built from it, an info and a texture of
    another backend built with the private constructors, and a store with one
    shared mutable state. *)
Definition sampleVkInfo : VulkanTextureInfo :=
  {| info_fSampleCount := 4;
     info_fMipmapped := Mipmapped_kYes;
     info_fFormat := 37;
     info_fImageTiling := 0;
     info_fImageUsageFlags := 6;
     info_fYcbcrConversionInfo := 0 |}.

Definition sampleVkInfo' : VulkanTextureInfo :=
  {| info_fSampleCount := 1;
     info_fMipmapped := Mipmapped_kNo;
     info_fFormat := 37;
     info_fImageTiling := 0;
     info_fImageUsageFlags := 16;
     info_fYcbcrConversionInfo := 0 |}.

Definition neverProtected (vkInfo : VulkanTextureInfo) : Protected := Protected_kNo.

Definition sampleVulkanInfo : TextureInfo.t :=
  TextureInfo.ofVulkan neverProtected sampleVkInfo.

Definition sampleMetalInfo : TextureInfo.t :=
  TextureInfo.make kMetal 1 Mipmapped_kNo Protected_kNo [80; 2].

Definition sampleMetalTexture : BackendTexture.t :=
  BackendTexture.make {| fWidth := 16; fHeight := 8 |} sampleMetalInfo [255].

Definition sampleVulkanTexture : BackendTexture.t :=
  {| BackendTexture.fDimensions := {| fWidth := 16; fHeight := 8 |};
     BackendTexture.fInfo := sampleVulkanInfo;
     BackendTexture.fTextureData := None;
     BackendTexture.fMutableState := Some 1%positive;
     BackendTexture.fMemoryAlloc := VulkanAlloc_default;
     BackendTexture.fVkImage := 4096 |}.

Definition sampleStore : store :=
  {[ 1%positive := {| fLayout := 2; fQueueFamilyIndex := 0 |} ]}.

(** The sample Vulkan info with another protected state and a payload in the
    container. *)
Definition sampleProtectedVulkanInfo : TextureInfo.t :=
  {| TextureInfo.fBackend := kVulkan;
     TextureInfo.fValid := true;
     TextureInfo.fSampleCount := 4;
     TextureInfo.fMipmapped := Mipmapped_kYes;
     TextureInfo.fProtected := Protected_kYes;
     TextureInfo.fTextureInfoData := emplace [1; 2; 3];
     TextureInfo.fSpecUnion := TextureInfo.VkSpec (VulkanTextureInfoToSpec sampleVkInfo) |}.

(** * Properties *)

(** ** TextureInfo: extraction of the Vulkan info *)

(** The guard of [getVulkanTextureInfo], as a proposition. *)
Lemma getVulkanTextureInfo_guard (i : TextureInfo.t) :
  negb (TextureInfo.isValid i) || negb (bool_decide (TextureInfo.fBackend i = kVulkan)) = true
  <-> TextureInfo.isValid i = false \/ TextureInfo.backend i <> kVulkan.
Proof.
  unfold TextureInfo.backend.
  rewrite orb_true_iff, !negb_true_iff, bool_decide_eq_false.
  reflexivity.
Qed.

Lemma getVulkanTextureInfo_fails (i : TextureInfo.t) (info : VulkanTextureInfo) :
  TextureInfo.isValid i = false \/ TextureInfo.backend i <> kVulkan ->
  TextureInfo.getVulkanTextureInfo i info = (false, info).
Proof.
  intros H%getVulkanTextureInfo_guard.
  unfold TextureInfo.getVulkanTextureInfo. rewrite H. reflexivity.
Qed.

Lemma getVulkanTextureInfo_succeeds (i : TextureInfo.t) (info : VulkanTextureInfo) :
  TextureInfo.isValid i = true -> TextureInfo.backend i = kVulkan ->
  TextureInfo.getVulkanTextureInfo i info
  = (true, VulkanTextureSpecToTextureInfo (TextureInfo.fVkSpec i)
             (TextureInfo.numSamples i) (TextureInfo.mipmapped i)).
Proof.
  unfold TextureInfo.getVulkanTextureInfo, TextureInfo.backend.
  intros -> Hb. rewrite bool_decide_eq_true_2 by exact Hb. reflexivity.
Qed.

(** The spec stored by the Vulkan constructor, converted back with the sample
    count and the mipmapped state of the native info, is the native info. *)
Lemma VulkanTextureSpec_roundtrip (vkInfo : VulkanTextureInfo) :
  VulkanTextureSpecToTextureInfo (VulkanTextureInfoToSpec vkInfo)
    (info_fSampleCount vkInfo) (info_fMipmapped vkInfo) = vkInfo.
Proof. destruct vkInfo; reflexivity. Qed.

(** C1: constructing a [TextureInfo] from a [VulkanTextureInfo] [v] and then
    calling [getVulkanTextureInfo] returns true, and the extracted info is
    [v]: every field, the sample count and the mipmapped state among them, is
    reproduced, whatever the output struct held before. *)
Theorem C1_getVulkanTextureInfo_roundtrip :
  forall (protectedOf : VulkanTextureInfo -> Protected)
         (v out : VulkanTextureInfo),
    TextureInfo.getVulkanTextureInfo (TextureInfo.ofVulkan protectedOf v) out
    = (true, v).
Proof.
  intros protectedOf v out.
  rewrite getVulkanTextureInfo_succeeds by reflexivity.
  unfold TextureInfo.fVkSpec, TextureInfo.numSamples, TextureInfo.mipmapped; simpl.
  rewrite VulkanTextureSpec_roundtrip. reflexivity.
Qed.

(** C2: [getVulkanTextureInfo] returns false iff the info is not valid or
    its backend is not Vulkan; when it returns false the output struct is
    exactly what it was before the call, and when it returns true the output
    struct is the info rebuilt from the stored spec, the sample count and the
    mipmapped state. *)
Theorem C2_getVulkanTextureInfo_failure :
  forall (i : TextureInfo.t) (out : VulkanTextureInfo),
    ((TextureInfo.getVulkanTextureInfo i out).1 = false
     <-> TextureInfo.isValid i = false \/ TextureInfo.backend i <> kVulkan)
    /\ ((TextureInfo.getVulkanTextureInfo i out).1 = false ->
        (TextureInfo.getVulkanTextureInfo i out).2 = out)
    /\ ((TextureInfo.getVulkanTextureInfo i out).1 = true ->
        (TextureInfo.getVulkanTextureInfo i out).2
        = VulkanTextureSpecToTextureInfo (TextureInfo.fVkSpec i)
            (TextureInfo.numSamples i) (TextureInfo.mipmapped i)).
Proof.
  intros i out.
  destruct (TextureInfo.isValid i) eqn:Hv;
    [destruct (decide (TextureInfo.backend i = kVulkan)) as [Hb|Hb]|].
  - rewrite (getVulkanTextureInfo_succeeds i out Hv Hb); simpl.
    repeat split; try discriminate; try reflexivity.
    intros [?|?]; [discriminate | contradiction].
  - rewrite (getVulkanTextureInfo_fails i out) by (right; exact Hb); simpl.
    repeat split; try discriminate; auto.
  - rewrite (getVulkanTextureInfo_fails i out) by (left; exact Hv); simpl.
    repeat split; try discriminate; auto.
Qed.

(** The extraction on concrete infos: it succeeds on an info built by the
    Vulkan constructor, and fails, leaving the output alone, on an info of
    another backend and on an info that is not valid. *)
Example getVulkanTextureInfo_sample :
  TextureInfo.getVulkanTextureInfo sampleVulkanInfo sampleVkInfo' = (true, sampleVkInfo).
Proof. reflexivity. Qed.

Example getVulkanTextureInfo_sample_metal :
  TextureInfo.getVulkanTextureInfo sampleMetalInfo sampleVkInfo' = (false, sampleVkInfo').
Proof. reflexivity. Qed.

Example getVulkanTextureInfo_sample_invalid :
  TextureInfo.getVulkanTextureInfo
    (TextureInfo.mk kVulkan false 4 Mipmapped_kYes Protected_kNo None
       (TextureInfo.VkSpec (VulkanTextureInfoToSpec sampleVkInfo)))
    sampleVkInfo'
  = (false, sampleVkInfo').
Proof. reflexivity. Qed.

(** C5: a default-constructed [TextureInfo] is not valid, carries the mock
    backend tag, one sample, no mipmaps and no protection, and the Vulkan
    extraction on it returns false and leaves the output struct as it was. *)
Theorem C5_default_TextureInfo :
  TextureInfo.isValid TextureInfo.default = false
  /\ TextureInfo.backend TextureInfo.default = kMock
  /\ TextureInfo.numSamples TextureInfo.default = 1
  /\ TextureInfo.mipmapped TextureInfo.default = Mipmapped_kNo
  /\ TextureInfo.isProtected TextureInfo.default = Protected_kNo
  /\ forall out : VulkanTextureInfo,
       TextureInfo.getVulkanTextureInfo TextureInfo.default out = (false, out).
Proof.
  repeat (split; [reflexivity |]).
  intros out. apply getVulkanTextureInfo_fails. left. reflexivity.
Qed.

(** ** TextureInfo: inequality *)

(** C10: for both types [a != b] is exactly the negation of [a == b],
    whatever [operator==] computes. *)
Theorem C10_operator_ne_negates_operator_eq :
  forall (TextureInfo_eq : TextureInfo.t -> TextureInfo.t -> bool)
         (BackendTexture_eq : BackendTexture.t -> BackendTexture.t -> bool),
    (forall a b : TextureInfo.t,
        TextureInfoOps.operator_ne TextureInfo_eq a b = negb (TextureInfo_eq a b))
    /\ (forall a b : BackendTexture.t,
        BackendTexture.operator_ne BackendTexture_eq a b = negb (BackendTexture_eq a b))
    /\ (forall a b : BackendTexture.t,
        BackendTexture.operator_ne (BackendTexture.operator_eq TextureInfo_eq) a b
        = negb (BackendTexture.operator_eq TextureInfo_eq a b)).
Proof.
  intros TextureInfo_eq BackendTexture_eq.
  split; [| split]; intros a b; reflexivity.
Qed.

(** ** BackendTexture *)

(** C4: [a == b] is true iff the dimensions are equal, the embedded infos
    are equal and the backend-specific handles are identical; changing only
    the dimensions, or only the native handle, of a texture gives a texture
    that compares unequal to it. *)
Theorem C4_operator_eq_iff :
  forall (TextureInfo_eq : TextureInfo.t -> TextureInfo.t -> bool)
         (a b : BackendTexture.t),
    (BackendTexture.operator_eq TextureInfo_eq a b = true
     <-> BackendTexture.dimensions a = BackendTexture.dimensions b
         /\ TextureInfo_eq (BackendTexture.info a) (BackendTexture.info b) = true
         /\ BackendTexture.handle a = BackendTexture.handle b)
    /\ (forall d : SkISize,
          d <> BackendTexture.dimensions a ->
          BackendTexture.operator_eq TextureInfo_eq a
            (BackendTexture.mk d (BackendTexture.fInfo a) (BackendTexture.fTextureData a)
               (BackendTexture.fMutableState a) (BackendTexture.fMemoryAlloc a)
               (BackendTexture.fVkImage a)) = false)
    /\ (forall h : VkImage,
          h <> BackendTexture.fVkImage a ->
          BackendTexture.operator_eq TextureInfo_eq a
            (BackendTexture.mk (BackendTexture.fDimensions a) (BackendTexture.fInfo a)
               (BackendTexture.fTextureData a) (BackendTexture.fMutableState a)
               (BackendTexture.fMemoryAlloc a) h) = false).
Proof.
  intros TextureInfo_eq a b.
  unfold BackendTexture.operator_eq, BackendTexture.dimensions, BackendTexture.info.
  split; [| split].
  - rewrite !andb_true_iff, !bool_decide_eq_true. tauto.
  - intros d Hd; simpl.
    rewrite (bool_decide_eq_false_2 (BackendTexture.fDimensions a = d)); [reflexivity |].
    intros e. apply Hd. symmetry. exact e.
  - intros h Hh; simpl.
    rewrite (bool_decide_eq_false_2 (BackendTexture.handle a = _)).
    + apply andb_false_r.
    + unfold BackendTexture.handle; simpl. intros [= e]. apply Hh. symmetry. exact e.
Qed.

(** Equality on concrete textures, with structural equality of the infos: a
    texture equals its copy, also when the copy references another mutable
    state, and differs from a texture of other dimensions or of another
    native handle. *)
Example operator_eq_sample :
  let TextureInfo_eq := fun a b : TextureInfo.t => bool_decide (a = b) in
  let b := sampleVulkanTexture in
  BackendTexture.operator_eq TextureInfo_eq b b = true
  /\ BackendTexture.operator_eq TextureInfo_eq b
       (BackendTexture.mk (BackendTexture.fDimensions b) (BackendTexture.fInfo b)
          None (Some 2%positive) VulkanAlloc_default 4096) = true
  /\ BackendTexture.operator_eq TextureInfo_eq b
       (BackendTexture.mk {| fWidth := 8; fHeight := 8 |} (BackendTexture.fInfo b)
          None (Some 1%positive) VulkanAlloc_default 4096) = false
  /\ BackendTexture.operator_eq TextureInfo_eq b
       (BackendTexture.mk (BackendTexture.fDimensions b) (BackendTexture.fInfo b)
          None (Some 1%positive) VulkanAlloc_default 4097) = false.
Proof. vm_compute. repeat split. Qed.

(** C6: validity and the backend tag of a [BackendTexture] are those of its
    embedded [TextureInfo]; a default-constructed [BackendTexture] is not
    valid. *)
Theorem C6_isValid_backend_delegate :
  (forall b : BackendTexture.t,
      BackendTexture.isValid b = TextureInfo.isValid (BackendTexture.info b)
      /\ BackendTexture.backend b = TextureInfo.backend (BackendTexture.info b))
  /\ (forall dimensions : SkISize,
      BackendTexture.isValid (BackendTexture.default dimensions) = false).
Proof.
  split.
  - intros b. split; reflexivity.
  - intros dimensions. reflexivity.
Qed.

(** The guard of the Vulkan accessors fails on a texture that is not valid
    or whose backend is not Vulkan. *)
Lemma vulkan_guard_false (b : BackendTexture.t) :
  BackendTexture.isValid b = false \/ BackendTexture.backend b <> kVulkan ->
  BackendTexture.isValid b && bool_decide (BackendTexture.backend b = kVulkan) = false.
Proof.
  intros [Hv|Hb].
  - rewrite Hv. reflexivity.
  - rewrite (bool_decide_eq_false_2 _ Hb). apply andb_false_r.
Qed.

(** C7: on a [BackendTexture] that is not valid or whose backend is not
    Vulkan, [getVkImage] returns [VK_NULL_HANDLE], [getVkImageLayout] and
    [getVkQueueFamilyIndex] return their sentinel values and [getMemoryAlloc]
    returns null, whatever the texture and the shared states hold. *)
Theorem C7_vulkan_accessors_sentinel :
  forall (sigma : store) (b : BackendTexture.t),
    BackendTexture.isValid b = false \/ BackendTexture.backend b <> kVulkan ->
    BackendTexture.getVkImage b = VK_NULL_HANDLE
    /\ BackendTexture.getVkImageLayout sigma b = VK_IMAGE_LAYOUT_UNDEFINED
    /\ BackendTexture.getVkQueueFamilyIndex sigma b = VK_QUEUE_FAMILY_IGNORED
    /\ BackendTexture.getMemoryAlloc b = None.
Proof.
  intros sigma b H%vulkan_guard_false.
  unfold BackendTexture.getVkImage, BackendTexture.getVkImageLayout,
    BackendTexture.getVkQueueFamilyIndex, BackendTexture.getMemoryAlloc.
  rewrite H. repeat split.
Qed.


(** A texture of the Metal backend, built by the private constructors, is
    valid and not a Vulkan texture; its Vulkan accessors return the
    sentinels. *)
Lemma C7_vulkan_accessors_witness :
  (BackendTexture.isValid sampleMetalTexture = false
   \/ BackendTexture.backend sampleMetalTexture <> kVulkan)
  /\ BackendTexture.getVkImage sampleMetalTexture = VK_NULL_HANDLE
  /\ BackendTexture.getVkImageLayout sampleStore sampleMetalTexture
     = VK_IMAGE_LAYOUT_UNDEFINED
  /\ BackendTexture.getVkQueueFamilyIndex sampleStore sampleMetalTexture
     = VK_QUEUE_FAMILY_IGNORED
  /\ BackendTexture.getMemoryAlloc sampleMetalTexture = None.
Proof.
  assert (H : BackendTexture.isValid sampleMetalTexture = false
              \/ BackendTexture.backend sampleMetalTexture <> kVulkan)
    by (right; discriminate).
  split; [exact H |].
  exact (C7_vulkan_accessors_sentinel sampleStore sampleMetalTexture H).
Defined.

(** On a Vulkan texture the accessors return what the texture and its shared
    state hold. *)
Example vulkan_accessors_sample :
  BackendTexture.getVkImage sampleVulkanTexture = 4096
  /\ BackendTexture.getVkImageLayout sampleStore sampleVulkanTexture = 2
  /\ BackendTexture.getVkQueueFamilyIndex sampleStore sampleVulkanTexture = 0
  /\ BackendTexture.getMemoryAlloc sampleVulkanTexture = Some VulkanAlloc_default.
Proof. vm_compute. repeat split. Qed.

(** The mutable state is shared: after [setMutableState] on a texture, every
    texture that holds the same reference (a copy, for one) reads the new
    layout and queue-family index, and a texture that holds another
    reference reads what it read before. *)
Lemma setMutableState_shared (b c : BackendTexture.t) (s : MutableTextureState)
    (sigma : store) :
  (BackendTexture.fMutableState c = BackendTexture.fMutableState b ->
   is_Some (BackendTexture.fMutableState b) ->
   BackendTexture.mutableState (BackendTexture.setMutableState b s sigma).2 c = Some s)
  /\ (BackendTexture.fMutableState c <> BackendTexture.fMutableState b ->
      BackendTexture.mutableState (BackendTexture.setMutableState b s sigma).2 c
      = BackendTexture.mutableState sigma c).
Proof.
  unfold BackendTexture.mutableState, BackendTexture.setMutableState.
  split.
  - intros -> [l ->]; simpl. apply lookup_insert_eq.
  - intros Hne.
    destruct (BackendTexture.fMutableState b) as [l|]; simpl; [| reflexivity].
    destruct (BackendTexture.fMutableState c) as [l'|]; [| reflexivity].
    apply lookup_insert_ne. intros ->. apply Hne. reflexivity.
Qed.

(** On the sample store: the texture and a copy of it read layout 2 before
    the call and the new state after it. *)
Example setMutableState_sample :
  let newState := {| fLayout := 7; fQueueFamilyIndex := 3 |} in
  let copy := sampleVulkanTexture in
  let r := BackendTexture.setMutableState sampleVulkanTexture newState sampleStore in
  r.1 = sampleVulkanTexture
  /\ BackendTexture.getVkImageLayout sampleStore copy = 2
  /\ BackendTexture.getVkImageLayout r.2 copy = 7
  /\ BackendTexture.getVkQueueFamilyIndex r.2 copy = 3.
Proof. vm_compute. repeat split. Qed.

(** ** Further properties of the code written in the headers *)

(** X1: what [getVulkanTextureInfo] returns does not depend on what the
    output struct held: the flag is the same for any two previous contents,
    on success the whole output is the same (the assignment [*info = ...]
    leaves no field of the previous contents), and calling it again on its
    own output changes nothing. *)
Theorem X1_getVulkanTextureInfo_overwrites :
  forall (i : TextureInfo.t) (out1 out2 : VulkanTextureInfo),
    (TextureInfo.getVulkanTextureInfo i out1).1
    = (TextureInfo.getVulkanTextureInfo i out2).1
    /\ ((TextureInfo.getVulkanTextureInfo i out1).1 = true ->
        (TextureInfo.getVulkanTextureInfo i out1).2
        = (TextureInfo.getVulkanTextureInfo i out2).2)
    /\ TextureInfo.getVulkanTextureInfo i (TextureInfo.getVulkanTextureInfo i out1).2
       = TextureInfo.getVulkanTextureInfo i out1.
Proof.
  intros i out1 out2. unfold TextureInfo.getVulkanTextureInfo.
  destruct (negb (TextureInfo.isValid i)
            || negb (bool_decide (TextureInfo.fBackend i = kVulkan))) eqn:G; simpl.
  - repeat split. discriminate.
  - repeat split.
Qed.

(** X2: an info built by the private constructor is valid whatever backend
    tag it is given, so the Vulkan extraction on it is decided by the tag
    alone: it returns true iff the tag is [kVulkan], and for any other tag
    (the mock tag too) it returns false and leaves the output alone. *)
Theorem X2_getVulkanTextureInfo_of_make :
  forall (backend : BackendApi) (sampleCount : uint32_t) (mipped : Mipmapped)
         (isProtected : Protected) (data : list Z) (out : VulkanTextureInfo),
    TextureInfo.isValid
      (TextureInfo.make backend sampleCount mipped isProtected data) = true
    /\ ((TextureInfo.getVulkanTextureInfo
           (TextureInfo.make backend sampleCount mipped isProtected data) out).1 = true
        <-> backend = kVulkan)
    /\ (backend <> kVulkan ->
        TextureInfo.getVulkanTextureInfo
          (TextureInfo.make backend sampleCount mipped isProtected data) out
        = (false, out)).
Proof.
  intros backend sampleCount mipped isProtected data out.
  split; [reflexivity |].
  unfold TextureInfo.getVulkanTextureInfo; simpl.
  destruct (decide (backend = kVulkan)) as [e|n].
  - rewrite (bool_decide_eq_true_2 _ e); simpl.
    split; [tauto | contradiction].
  - rewrite (bool_decide_eq_false_2 _ n); simpl.
    split; [| reflexivity]. split; [discriminate | contradiction].
Qed.

(** X3: the assertion of the private accessor [vulkanTextureSpec] holds
    exactly when [getVulkanTextureInfo] returns true, and then the extracted
    info is the one rebuilt from the spec the accessor returns, the sample
    count and the mipmapped state. *)
Theorem X3_vulkanTextureSpec_agrees :
  forall (i : TextureInfo.t) (out : VulkanTextureInfo),
    (TextureInfoAccess.vulkanTextureSpec i = None
     <-> (TextureInfo.getVulkanTextureInfo i out).1 = false)
    /\ (forall s : VulkanTextureSpec,
          TextureInfoAccess.vulkanTextureSpec i = Some s ->
          TextureInfo.getVulkanTextureInfo i out
          = (true, VulkanTextureSpecToTextureInfo s
                     (TextureInfo.numSamples i) (TextureInfo.mipmapped i))).
Proof.
  intros i out.
  unfold TextureInfoAccess.vulkanTextureSpec, TextureInfo.getVulkanTextureInfo,
    TextureInfo.isValid, TextureInfo.numSamples, TextureInfo.mipmapped.
  destruct (TextureInfo.fValid i),
    (bool_decide (TextureInfo.fBackend i = kVulkan)); simpl.
  - split; [split; discriminate |]. intros s [= <-]. reflexivity.
  - split; [split; reflexivity | discriminate].
  - split; [split; reflexivity | discriminate].
  - split; [split; reflexivity | discriminate].
Qed.

(** X4: a [BackendTexture] built by the private constructor reports the
    dimensions and the info it was given, and is valid exactly when that info
    is; built from an info of the private [TextureInfo] constructor it is
    valid and of the backend that info was tagged with, whatever the two
    payloads are. *)
Theorem X4_BackendTexture_make_accessors :
  forall (dimensions : SkISize) (info : TextureInfo.t) (textureData : list Z),
    BackendTexture.dimensions (BackendTexture.make dimensions info textureData)
    = dimensions
    /\ BackendTexture.info (BackendTexture.make dimensions info textureData) = info
    /\ BackendTexture.isValid (BackendTexture.make dimensions info textureData)
       = TextureInfo.isValid info
    /\ BackendTexture.backend (BackendTexture.make dimensions info textureData)
       = TextureInfo.backend info
    /\ (forall (backend : BackendApi) (sampleCount : uint32_t) (mipped : Mipmapped)
               (isProtected : Protected) (data : list Z),
          BackendTexture.isValid
            (BackendTexture.make dimensions
               (TextureInfo.make backend sampleCount mipped isProtected data)
               textureData) = true
          /\ BackendTexture.backend
               (BackendTexture.make dimensions
                  (TextureInfo.make backend sampleCount mipped isProtected data)
                  textureData) = backend).
Proof.
  intros dimensions info textureData.
  do 4 (split; [reflexivity |]).
  intros backend sampleCount mipped isProtected data. split; reflexivity.
Qed.

(** X5: [getVulkanTextureInfo] reads the validity flag, the backend tag, the
    sample count, the mipmapped state and the union, and nothing else: two
    infos that agree on these give the same result, whatever their protected
    state and the payload of their container. *)
Theorem X5_getVulkanTextureInfo_reads :
  forall (i j : TextureInfo.t) (out : VulkanTextureInfo),
    TextureInfo.fValid i = TextureInfo.fValid j ->
    TextureInfo.fBackend i = TextureInfo.fBackend j ->
    TextureInfo.fSampleCount i = TextureInfo.fSampleCount j ->
    TextureInfo.fMipmapped i = TextureInfo.fMipmapped j ->
    TextureInfo.fSpecUnion i = TextureInfo.fSpecUnion j ->
    TextureInfo.getVulkanTextureInfo i out = TextureInfo.getVulkanTextureInfo j out.
Proof.
  intros i j out Hv Hb Hs Hm Hu.
  unfold TextureInfo.getVulkanTextureInfo, TextureInfo.isValid, TextureInfo.fVkSpec.
  rewrite Hv, Hb, Hs, Hm, Hu. reflexivity.
Qed.

(** The sample Vulkan info and the one that differs from it in the protected
    state and the container payload are distinct and extract to the same
    native info. *)
Lemma X5_getVulkanTextureInfo_reads_witness :
  sampleVulkanInfo <> sampleProtectedVulkanInfo
  /\ TextureInfo.getVulkanTextureInfo sampleVulkanInfo sampleVkInfo'
     = TextureInfo.getVulkanTextureInfo sampleProtectedVulkanInfo sampleVkInfo'.
Proof.
  split.
  - discriminate.
  - apply (X5_getVulkanTextureInfo_reads sampleVulkanInfo sampleProtectedVulkanInfo
             sampleVkInfo'); reflexivity.
Defined.
